(** * The API server of [apps/api-server/app.py]

    A shallow embedding of the request handler [APIHandler.do_GET], of the
    metrics exporter [APIHandler._generate_metrics] and of the two module-level
    dictionaries [request_count] and [request_duration], followed by the
    properties of the handler that the specification states.

    Modelling choices, all read off the source:
    - a Python [dict] is an association list in insertion order with unique
      keys ([.items()] iterates in that order, and the exporter's output
      depends on it);
    - a Python [float] is a binary64 primitive float; the wall clock
      [time.time()] is an oracle [clock], whose k-th reading is [clock k];
    - a [str] is a [string] whose characters are code points below 256 (the
      range [http.server] produces for [self.path], which it decodes as
      ISO-8859-1); [bytes] are [list byte];
    - the handler runs in a state monad that records every state it passes
      through, so that the order of its effects can be stated;
    - the formatting of a float ([repr] and the [.3f] format) is a parameter:
      it belongs to the Python runtime, not to this program. *)

From Stdlib Require Import ZArith NArith Strings.String Strings.Ascii Strings.Byte List Lia.
From Stdlib Require Import Floats.PrimFloat.
From stdpp Require Import base option list sorting strings gmap pretty.

Local Open Scope string_scope.
Local Open Scope Z_scope.

(** ** Python values used by the program *)

(** The double quote, the backslash and the line feed, from their codes. *)
Definition dquote : string := String "034"%char EmptyString.
Definition backslash : string := String "092"%char EmptyString.
Definition newline : string := String "010"%char EmptyString.

(** [s.startswith(p)] *)
Definition startswith (s p : string) : bool := String.prefix p s.

(** [sep.join(l)] *)
Definition join (sep : string) (l : list string) : string := String.concat sep l.

(** [str(n)] for an [int]. *)
Definition str_int (n : Z) : string := pretty n.

(** *** Dictionaries: insertion-ordered association lists *)

Abbreviation dict V := (list (string * V)).

(** [d.get(k)] *)
Fixpoint dict_get {V : Type} (d : dict V) (k : string) : option V :=
  match d with
  | [] => None
  | (k', v) :: d' => if String.eqb k' k then Some v else dict_get d' k
  end.

(** [d.get(k, dflt)] *)
Definition dict_get_default {V : Type} (d : dict V) (k : string) (dflt : V) : V :=
  match dict_get d k with
  | Some v => v
  | None => dflt
  end.

(** [d[k] = v]: an existing key keeps its position, a new key goes last. *)
Fixpoint dict_set {V : Type} (d : dict V) (k : string) (v : V) : dict V :=
  match d with
  | [] => [(k, v)]
  | (k', v') :: d' =>
      if String.eqb k' k then (k', v) :: d' else (k', v') :: dict_set d' k v
  end.

(** [list(d.keys())] *)
Definition dict_keys {V : Type} (d : dict V) : list string := map fst d.

(** *** [str.encode()]: UTF-8 of code points below 256 *)

Definition utf8_char (c : ascii) : list byte :=
  let n := N_of_ascii c in
  if (n <? 128)%N then [byte_of_ascii c]
  else [byte_of_ascii (ascii_of_N (N.lor 192 (N.shiftr n 6)));
        byte_of_ascii (ascii_of_N (N.lor 128 (N.land n 63)))].

Fixpoint str_encode (s : string) : list byte :=
  match s with
  | EmptyString => []
  | String c s' => utf8_char c ++ str_encode s'
  end.

(** *** [json.dumps] on a flat dictionary of strings and floats *)

Inductive pyval : Type :=
  | PyStr (s : string)
  | PyFloat (f : float).

Definition hex_digit (n : N) : ascii :=
  ascii_of_N (if (n <? 10)%N then 48 + n else 87 + n)%N.

(** ['\\u{0:04x}'.format(n)] for [n < 256]. *)
Definition escape_u (n : N) : string :=
  backslash +:+ "u00" +:+
  String (hex_digit (N.shiftr n 4)) (String (hex_digit (N.land n 15)) EmptyString).

(** The replacement of one character by [json.encoder]'s
    [encode_basestring_ascii]: the entries of [ESCAPE_DCT], the printable
    ASCII characters unchanged, and a [\u] escape for everything else. *)
Definition escape_char (c : ascii) : string :=
  let n := N_of_ascii c in
  if (n =? 92)%N then backslash +:+ backslash
  else if (n =? 34)%N then backslash +:+ dquote
  else if (n =? 8)%N then backslash +:+ "b"
  else if (n =? 12)%N then backslash +:+ "f"
  else if (n =? 10)%N then backslash +:+ "n"
  else if (n =? 13)%N then backslash +:+ "r"
  else if (n =? 9)%N then backslash +:+ "t"
  else if ((32 <=? n) && (n <=? 126))%N then String c EmptyString
  else escape_u n.

Fixpoint escape_ascii (s : string) : string :=
  match s with
  | EmptyString => EmptyString
  | String c s' => escape_char c +:+ escape_ascii s'
  end.

Definition encode_basestring_ascii (s : string) : string :=
  dquote +:+ escape_ascii s +:+ dquote.

Section Server.

(** [float.__repr__] and [format(x, '.3f')]. *)
Variable float_repr : float → string.
Variable float_format_3f : float → string.

(** The wall clock: [clock k] is what the k-th call of [time.time()] in the
    process returns. *)
Variable clock : nat → float.

(** [os.environ]. *)
Variable environ : gmap string string.

(** [os.getenv(name, dflt)] *)
Definition getenv (name dflt : string) : string :=
  match environ !! name with
  | Some v => v
  | None => dflt
  end.

(** [json.encoder]'s [floatstr]. *)
Definition floatstr (o : float) : string :=
  if negb (PrimFloat.eqb o o) then "NaN"
  else if PrimFloat.eqb o infinity then "Infinity"
  else if PrimFloat.eqb o neg_infinity then "-Infinity"
  else float_repr o.

Definition json_value (v : pyval) : string :=
  match v with
  | PyStr s => encode_basestring_ascii s
  | PyFloat f => floatstr f
  end.

Definition json_member (kv : string * pyval) : string :=
  encode_basestring_ascii (fst kv) +:+ ": " +:+ json_value (snd kv).

(** [json.dumps(d)] with the default separators. *)
Definition json_dumps (d : dict pyval) : string :=
  "{" +:+ join ", " (map json_member d) +:+ "}".

(** ** Process state and the handler's monad *)

(** What a handler sends on its connection, call by call. *)
Inductive http_out : Type :=
  | Status (code : Z)                 (* [send_response(code)] *)
  | Header (name value : string)      (* [send_header(name, value)] *)
  | EndHeaders                        (* [end_headers()] *)
  | Body (data : list byte).          (* [wfile.write(data)] *)

(** The two module-level dictionaries, the number of clock readings taken so
    far, what the current connection has been sent, and the lines given to
    [logger.info]. *)
Record state : Type := mkState {
  request_count : dict Z;
  request_duration : dict float;
  ticks : nat;
  wfile : list http_out;
  logged : list string
}.

(** The state at process start: both dictionaries are empty. *)
Definition boot : state := mkState [] [] 0 [] [].

(** What a computation gives back: its value, the state it ends in, and the
    states it went through after the one it started in, oldest first (one
    state per effect). *)
Record outcome (A : Type) : Type := Outcome {
  value : A;
  final : state;
  visited : list state
}.
Arguments Outcome {A} _ _ _.
Arguments value {A} _.
Arguments final {A} _.
Arguments visited {A} _.

Definition M (A : Type) : Type := state → outcome A.

#[global] Instance M_ret : MRet M := λ A a s, Outcome a s [].
#[global] Instance M_bind : MBind M := λ A B k m s,
  let o1 := m s in
  let o2 := k (value o1) (final o1) in
  Outcome (value o2) (final o2) (visited o1 ++ visited o2).

(** Reading the current state, and one effect on it. *)
Definition gets {A : Type} (f : state → A) : M A := λ s, Outcome (f s) s [].
Definition modify (f : state → state) : M unit := λ s, Outcome tt (f s) [f s].

(** The value a computation returns from [s], the state it ends in, and all
    the states of its run, in the order they were reached. *)
Definition result {A : Type} (m : M A) (s : state) : A := value (m s).
Definition exec {A : Type} (m : M A) (s : state) : state := final (m s).
Definition states {A : Type} (m : M A) (s : state) : list state := s :: visited (m s).

(** *** The effects the handler uses *)

Definition set_request_count (k : string) (v : Z) : M unit :=
  modify (λ s, mkState (dict_set (request_count s) k v) (request_duration s)
                       (ticks s) (wfile s) (logged s)).

Definition set_request_duration (k : string) (v : float) : M unit :=
  modify (λ s, mkState (request_count s) (dict_set (request_duration s) k v)
                       (ticks s) (wfile s) (logged s)).

Definition time_time : M float :=
  now ← gets (λ s, clock (ticks s));
  modify (λ s, mkState (request_count s) (request_duration s)
                       (S (ticks s)) (wfile s) (logged s));;
  mret now.

Definition emit (o : http_out) : M unit :=
  modify (λ s, mkState (request_count s) (request_duration s)
                       (ticks s) (wfile s ++ [o]) (logged s)).

Definition send_response (code : Z) : M unit := emit (Status code).
Definition send_header (name value : string) : M unit := emit (Header name value).
Definition end_headers : M unit := emit EndHeaders.
Definition wfile_write (data : list byte) : M unit := emit (Body data).

Definition logger_info (msg : string) : M unit :=
  modify (λ s, mkState (request_count s) (request_duration s)
                       (ticks s) (wfile s) (logged s ++ [msg])).

(** ** The metrics exporter *)

Definition count_line (endpoint : string) (count : Z) : string :=
  "api_requests_total{endpoint=" +:+ dquote +:+ endpoint +:+ dquote +:+ "} "
    +:+ str_int count.

Definition duration_line (endpoint : string) (duration : float) : string :=
  "api_request_duration_seconds{endpoint=" +:+ dquote +:+ endpoint +:+ dquote +:+ "} "
    +:+ float_repr duration.

(** [for k, v in d.items(): metrics.append(line(k, v))] *)
Definition append_lines {V : Type} (line : string → V → string)
    (metrics : list string) (d : dict V) : list string :=
  fold_left (λ metrics kv, (metrics ++ [line (fst kv) (snd kv)])%list) d metrics.

Definition _generate_metrics : M string :=
  let metrics := ["# HELP api_requests_total Total number of requests";
                  "# TYPE api_requests_total counter"] in
  counts ← gets request_count;
  let metrics := append_lines count_line metrics counts in
  let metrics := (metrics ++ ["# HELP api_request_duration_seconds Request duration"])%list in
  let metrics := (metrics ++ ["# TYPE api_request_duration_seconds gauge"])%list in
  durations ← gets request_duration;
  let metrics := append_lines duration_line metrics durations in
  mret (join newline metrics +:+ newline).

(** The body of the 404 response: [{"error": "Not found"}]. *)
Definition not_found_body : string :=
  "{" +:+ dquote +:+ "error" +:+ dquote +:+ ": "
      +:+ dquote +:+ "Not found" +:+ dquote +:+ "}".

(** ** The request handler *)

Definition do_GET (path : string) : M unit :=
  start_time ← time_time;
  if String.eqb path "/health" then
    send_response 200;;
    send_header "Content-Type" "application/json";;
    end_headers;;
    let response := [("status", PyStr "healthy");
                     ("version", PyStr (getenv "APP_VERSION" "1.0.0"))] in
    wfile_write (str_encode (json_dumps response));;
    logger_info "Health check passed"
  else if String.eqb path "/metrics" then
    send_response 200;;
    send_header "Content-Type" "text/plain";;
    end_headers;;
    metrics ← _generate_metrics;
    wfile_write (str_encode metrics)
  else if startswith path "/api/echo" then
    now ← time_time;
    let duration := PrimFloat.sub now start_time in
    counts ← gets request_count;
    set_request_count path (dict_get_default counts path 0 + 1);;
    set_request_duration path duration;;
    send_response 200;;
    send_header "Content-Type" "application/json";;
    end_headers;;
    timestamp ← time_time;
    let response := [("message", PyStr "pong");
                     ("hostname", PyStr (getenv "HOSTNAME" "unknown"));
                     ("timestamp", PyFloat timestamp)] in
    wfile_write (str_encode (json_dumps response));;
    logger_info ("Request: " +:+ path +:+ " - Duration: "
                 +:+ float_format_3f duration +:+ "s")
  else
    send_response 404;;
    send_header "Content-Type" "application/json";;
    end_headers;;
    let response := [("error", PyStr "Not found")] in
    wfile_write (str_encode (json_dumps response)).

(** ** The serving loop *)

(** A new connection: a fresh handler, nothing sent on it yet. *)
Definition accept : M unit :=
  modify (λ s, mkState (request_count s) (request_duration s)
                       (ticks s) [] (logged s)).

(** [serve_forever] over the GET requests received until shutdown, given by
    their paths: one connection at a time, each handled to its end. *)
Fixpoint serve_forever (paths : list string) : M unit :=
  match paths with
  | [] => mret tt
  | path :: rest => accept;; do_GET path;; serve_forever rest
  end.

(** ** The exposition text as the specification words it *)

Definition spec_counter_header : list string :=
  ["# HELP api_requests_total Total number of requests";
   "# TYPE api_requests_total counter"].

Definition spec_gauge_header : list string :=
  ["# HELP api_request_duration_seconds Request duration";
   "# TYPE api_request_duration_seconds gauge"].

Definition spec_count_line (entry : string * Z) : string :=
  "api_requests_total{endpoint=" +:+ dquote +:+ fst entry +:+ dquote +:+ "} "
    +:+ str_int (snd entry).

Definition spec_duration_line (entry : string * float) : string :=
  "api_request_duration_seconds{endpoint=" +:+ dquote +:+ fst entry +:+ dquote +:+ "} "
    +:+ float_repr (snd entry).

Definition spec_exposition (counts : dict Z) (durations : dict float) : string :=
  join newline (spec_counter_header ++ map spec_count_line counts
                ++ spec_gauge_header ++ map spec_duration_line durations)%list
    +:+ newline.

(** ** Predicates on the metrics store *)

(** What one echo request does to [request_count]. *)
Definition count_request (counts : dict Z) (path : string) : dict Z :=
  if startswith path "/api/echo"
  then dict_set counts path (dict_get_default counts path 0 + 1)
  else counts.

(** Both dictionaries have the same keys, and every count is at least 1. *)
Definition store_ok (s : state) : Prop :=
  dict_keys (request_count s) = dict_keys (request_duration s)
  ∧ Forall (λ entry, 1 ≤ snd entry) (request_count s).

(** No counter of [s1] is missing or smaller in [s2]. *)
Definition counts_le (s1 s2 : state) : Prop :=
  ∀ (k : string) (v : Z),
    dict_get (request_count s1) k = Some v →
    ∃ v' : Z, dict_get (request_count s2) k = Some v' ∧ v ≤ v'.

(** The run of [m] from [s] ends in its last state, and any state of it is
    related by [R] to every later one. *)
Definition stepwise_from (R : relation state) {A : Type} (m : M A) (s : state) : Prop :=
  StronglySorted R (states m s) ∧ last (states m s) = Some (exec m s).

(** ** Measures on requests and on the store *)

(** The requests [do_GET] gives a line to [logger.info] for. *)
Definition is_logged (path : string) : bool :=
  String.eqb path "/health" || startswith path "/api/echo".

(** The sum of all counters. *)
Definition total (counts : dict Z) : Z :=
  fold_right (λ entry acc, snd entry + acc) 0 counts.

(** ** Printable text, and reading an escaped string back *)







(** ** A concrete runtime, to run the model on *)

Definition sample_repr (f : float) : string := "0.5".

Definition sample_clock (k : nat) : float :=
  match k with
  | O => 100
  | S O => 100.5
  | _ => 101
  end%float.

Definition sample_environ : gmap string string := {[ "APP_VERSION" := "2.3.4" ]}.

(** * Properties *)

(** ** Dictionaries *)

Lemma dict_get_set_eq {V : Type} (d : dict V) (k : string) (v : V) :
  dict_get (dict_set d k v) k = Some v.
Proof.
  induction d as [|[k' v'] d IH]; simpl.
  - by rewrite String.eqb_refl.
  - destruct (String.eqb k' k) eqn:E; simpl; rewrite E; auto.
Qed.

Lemma dict_get_set_ne {V : Type} (d : dict V) (k k' : string) (v : V) :
  k ≠ k' → dict_get (dict_set d k v) k' = dict_get d k'.
Proof.
  intros Hne. induction d as [|[k0 v0] d IH]; simpl.
  - apply String.eqb_neq in Hne. by rewrite Hne.
  - destruct (String.eqb_spec k0 k) as [->|Hk]; simpl.
    + apply String.eqb_neq in Hne. by rewrite Hne.
    + by rewrite IH.
Qed.

Lemma dict_get_None {V : Type} (d : dict V) (k : string) :
  k ∉ dict_keys d → dict_get d k = None.
Proof.
  induction d as [|[k' v'] d IH]; simpl; [done|].
  rewrite not_elem_of_cons. intros [Hne Hnin].
  destruct (String.eqb_spec k' k); [congruence | auto].
Qed.

Lemma dict_set_fresh {V : Type} (d : dict V) (k : string) (v : V) :
  k ∉ dict_keys d → dict_set d k v = (d ++ [(k, v)])%list.
Proof.
  induction d as [|[k' v'] d IH]; simpl; [done|].
  rewrite not_elem_of_cons. intros [Hne Hnin].
  destruct (String.eqb_spec k' k); [congruence|]. by rewrite IH.
Qed.

(** Assigning the same key in two dictionaries with the same keys leaves
    them with the same keys, in the same order. *)
Lemma dict_keys_set {V W : Type} (d : dict V) (e : dict W) (k : string) (v : V) (w : W) :
  dict_keys d = dict_keys e →
  dict_keys (dict_set d k v) = dict_keys (dict_set e k w).
Proof.
  revert e. induction d as [|[k1 v1] d IH]; intros [|[k2 w2] e]; simpl; try done.
  intros [= -> Hk]. destruct (String.eqb k2 k); simpl; f_equal; auto.
Qed.

Lemma dict_keys_set_incl {V : Type} (d : dict V) (k k' : string) (v : V) :
  k' ∈ dict_keys d → k' ∈ dict_keys (dict_set d k v).
Proof.
  induction d as [|[k0 v0] d IH]; simpl; [by rewrite elem_of_nil|].
  destruct (String.eqb k0 k); simpl; rewrite !elem_of_cons; intuition.
Qed.

Lemma dict_set_Forall {V : Type} (P : string * V → Prop) (d : dict V) (k : string) (v : V) :
  Forall P d → (∀ k', P (k', v)) → Forall P (dict_set d k v).
Proof.
  intros Hd Hv. induction Hd as [|[k0 v0] d H0 Hd IH]; simpl.
  - by constructor.
  - destruct (String.eqb k0 k); constructor; auto.
Qed.

Lemma dict_get_Forall {V : Type} (P : string * V → Prop) (d : dict V) (k : string) (v : V) :
  Forall P d → dict_get d k = Some v → P (k, v).
Proof.
  induction 1 as [|[k0 v0] d H0 Hd IH]; simpl; [done|].
  destruct (String.eqb_spec k0 k) as [->|Hne]; [by intros [= ->] | auto].
Qed.

(** ** Symbolic execution of the handler *)

Lemma echo_not_health (path : string) :
  startswith path "/api/echo" = true → String.eqb path "/health" = false.
Proof. destruct (String.eqb_spec path "/health") as [->|]; [discriminate | done]. Qed.

Lemma echo_not_metrics (path : string) :
  startswith path "/api/echo" = true → String.eqb path "/metrics" = false.
Proof. destruct (String.eqb_spec path "/metrics") as [->|]; [discriminate | done]. Qed.

(** Runs the monad's operations on a state given field by field. *)
Ltac run_monad :=
  cbv beta iota zeta delta
    [mbind M_bind mret M_ret gets modify time_time set_request_count
     set_request_duration emit send_response send_header end_headers
     wfile_write logger_info accept _generate_metrics
     result exec states value final visited
     request_count request_duration ticks wfile logged];
  cbn [app].

Ltac run_monad_in H :=
  cbv beta iota zeta delta
    [mbind M_bind mret M_ret gets modify time_time set_request_count
     set_request_duration emit send_response send_header end_headers
     wfile_write logger_info accept _generate_metrics
     result exec states value final visited
     request_count request_duration ticks wfile logged] in H;
  cbn [app] in H.

(** Splits on the branch [do_GET] takes for [path]. *)
Ltac handler_cases path :=
  unfold do_GET in *;
  destruct (String.eqb_spec path "/health") as [->|?];
    [| destruct (String.eqb_spec path "/metrics") as [->|?];
       [| destruct (startswith path "/api/echo") eqn:? ]].

Lemma do_GET_request_count (path : string) (s : state) :
  request_count (exec (do_GET path) s) =
  if startswith path "/api/echo"
  then dict_set (request_count s) path (dict_get_default (request_count s) path 0 + 1)
  else request_count s.
Proof. handler_cases path; by destruct s. Qed.

Lemma do_GET_request_duration (path : string) (s : state) :
  request_duration (exec (do_GET path) s) =
  if startswith path "/api/echo"
  then dict_set (request_duration s) path (clock (S (ticks s)) - clock (ticks s))%float
  else request_duration s.
Proof. handler_cases path; by destruct s. Qed.

(** ** Routing *)

(** C1. The response of a GET request follows the routing table: [/health]
    gives 200, [application/json] and the health object with the version
    from [APP_VERSION] or its default; [/metrics] gives 200, [text/plain] and
    the exporter's output for the current store; a path that starts with
    [/api/echo] gives 200, [application/json] and the pong object with the
    host name from [HOSTNAME] or its default and the clock reading taken for
    the time stamp; every other path gives 404, [application/json] and
    exactly the not-found body. *)
Theorem do_GET_routing_table (path : string) (s : state) :
  (path = "/health" →
   wfile (exec (do_GET path) s) =
   (wfile s ++ [Status 200; Header "Content-Type" "application/json"; EndHeaders;
                Body (str_encode (json_dumps
                  [("status", PyStr "healthy");
                   ("version", PyStr (getenv "APP_VERSION" "1.0.0"))]))])%list)
  ∧ (path = "/metrics" →
     wfile (exec (do_GET path) s) =
     (wfile s ++ [Status 200; Header "Content-Type" "text/plain"; EndHeaders;
                  Body (str_encode (result _generate_metrics s))])%list)
  ∧ (startswith path "/api/echo" = true →
     wfile (exec (do_GET path) s) =
     (wfile s ++ [Status 200; Header "Content-Type" "application/json"; EndHeaders;
                  Body (str_encode (json_dumps
                    [("message", PyStr "pong");
                     ("hostname", PyStr (getenv "HOSTNAME" "unknown"));
                     ("timestamp", PyFloat (clock (S (S (ticks s)))))]))])%list)
  ∧ (path ≠ "/health" → path ≠ "/metrics" → startswith path "/api/echo" = false →
     wfile (exec (do_GET path) s) =
     (wfile s ++ [Status 404; Header "Content-Type" "application/json"; EndHeaders;
                  Body (list_byte_of_string not_found_body)])%list).
Proof.
  destruct s as [c d t w l].
  repeat split.
  - intros ->. unfold do_GET. simpl String.eqb. run_monad. by rewrite <- !app_assoc.
  - intros ->. unfold do_GET. simpl String.eqb. run_monad. by rewrite <- !app_assoc.
  - intros He. unfold do_GET.
    rewrite (echo_not_health _ He), (echo_not_metrics _ He), He.
    run_monad. by rewrite <- !app_assoc.
  - intros Hh Hm He. unfold do_GET.
    apply String.eqb_neq in Hh, Hm. rewrite Hh, Hm, He.
    run_monad. by rewrite <- !app_assoc.
Qed.

(** C7. The version in the body of [/health] is [1.0.0] when [APP_VERSION] is
    not in the environment, and the value the environment gives it
    otherwise. *)
Theorem health_version (s : state) :
  (environ !! "APP_VERSION" = None →
   wfile (exec (do_GET "/health") s) =
   (wfile s ++ [Status 200; Header "Content-Type" "application/json"; EndHeaders;
                Body (str_encode (json_dumps
                  [("status", PyStr "healthy"); ("version", PyStr "1.0.0")]))])%list)
  ∧ (∀ v : string, environ !! "APP_VERSION" = Some v →
     wfile (exec (do_GET "/health") s) =
     (wfile s ++ [Status 200; Header "Content-Type" "application/json"; EndHeaders;
                  Body (str_encode (json_dumps
                    [("status", PyStr "healthy"); ("version", PyStr v)]))])%list).
Proof.
  destruct (do_GET_routing_table "/health" s) as [Hhealth _].
  specialize (Hhealth eq_refl). unfold getenv in Hhealth.
  split; [intros Henv | intros v Henv]; by rewrite Henv in Hhealth.
Qed.

(** ** The metrics store *)

(** C2. Handling a request whose path starts with [/api/echo] (as
    [/api/echo], [/api/echo/] and [/api/echo?x=1] do) leaves [counts[path]]
    one above its former value, an absent key counting as 0, and leaves
    [lastDuration[path]] equal to the time elapsed between the start of the
    request and the second clock reading, whatever was stored before. *)
Theorem echo_updates_store :
  Forall (λ path, startswith path "/api/echo" = true)
         ["/api/echo"; "/api/echo/"; "/api/echo?x=1"]
  ∧ ∀ (path : string) (s : state),
      startswith path "/api/echo" = true →
      dict_get (request_count (exec (do_GET path) s)) path
        = Some (dict_get_default (request_count s) path 0 + 1)
      ∧ dict_get (request_duration (exec (do_GET path) s)) path
        = Some (clock (S (ticks s)) - clock (ticks s))%float.
Proof.
  split; [by repeat constructor|].
  intros path s He.
  rewrite do_GET_request_count, do_GET_request_duration, He.
  by rewrite !dict_get_set_eq.
Qed.

(** C6. Handling [/health], [/metrics] or any path that does not start with
    [/api/echo] leaves both dictionaries as they were. *)
Theorem other_paths_leave_store (path : string) (s : state) :
  path = "/health" ∨ path = "/metrics" ∨ startswith path "/api/echo" = false →
  request_count (exec (do_GET path) s) = request_count s
  ∧ request_duration (exec (do_GET path) s) = request_duration s.
Proof.
  intros H. rewrite do_GET_request_count, do_GET_request_duration.
  assert (startswith path "/api/echo" = false) as ->; [|done].
  by destruct H as [-> | [-> | H]].
Qed.

(** ** The order of the handler's effects *)

(** Closes the goal for one state of an enumerated run. *)
Ltac settle_state :=
  run_monad; split_and!;
  [ try discriminate; by intros _
  | done
  | intros k; split; intros Hk; try done; by apply dict_keys_set_incl ].

(** C3, as the code has it. In every state of the handling of a request:
    unless the path starts with [/api/echo], both dictionaries are as they
    were at the start; once anything has been sent on the connection, both
    dictionaries already are what they are at the end, so the echo handler
    changes the store before it writes its response and never after; and no
    key present at the start is missing. *)
Theorem store_changes_before_response (path : string) (s s' : state) :
  s' ∈ states (do_GET path) s →
  (startswith path "/api/echo" = false →
   request_count s' = request_count s ∧ request_duration s' = request_duration s)
  ∧ (wfile s' ≠ wfile s →
     request_count s' = request_count (exec (do_GET path) s)
     ∧ request_duration s' = request_duration (exec (do_GET path) s))
  ∧ (∀ k : string,
       (k ∈ dict_keys (request_count s) → k ∈ dict_keys (request_count s'))
       ∧ (k ∈ dict_keys (request_duration s) → k ∈ dict_keys (request_duration s'))).
Proof.
  intros Hin. destruct s as [c d t w l].
  handler_cases path; run_monad_in Hin;
    repeat (apply elem_of_cons in Hin as [-> | Hin]);
    try (by apply elem_of_nil in Hin); settle_state.
Qed.

(** ** Sequences of requests *)

Lemma serve_forever_cons (path : string) (rest : list string) (s : state) :
  exec (serve_forever (path :: rest)) s
  = exec (serve_forever rest) (exec (do_GET path) (exec accept s)).
Proof. reflexivity. Qed.

Lemma serve_forever_request_count (paths : list string) (s : state) :
  request_count (exec (serve_forever paths) s)
  = fold_left count_request paths (request_count s).
Proof.
  revert s. induction paths as [|path rest IH]; intros s; [done|].
  rewrite serve_forever_cons, IH, do_GET_request_count. by destruct s.
Qed.

Lemma count_request_again (path : string) (n : nat) (m : Z) :
  startswith path "/api/echo" = true →
  fold_left count_request (replicate n path) [(path, m)] = [(path, m + Z.of_nat n)].
Proof.
  intros He. revert m. induction n as [|n IH]; intros m.
  - simpl. by rewrite Z.add_0_r.
  - rewrite replicate_S. simpl fold_left. unfold count_request at 2.
    rewrite He. unfold dict_get_default. simpl. rewrite String.eqb_refl.
    rewrite IH. do 2 f_equal. lia.
Qed.

Lemma count_request_distinct (paths done : list string) :
  Forall (λ path, startswith path "/api/echo" = true) paths →
  NoDup (done ++ paths) →
  fold_left count_request paths (map (λ path, (path, 1)) done)
  = map (λ path, (path, 1)) (done ++ paths).
Proof.
  intros Hecho. revert done.
  induction Hecho as [|path rest He Hrest IH]; intros done Hnd.
  - by rewrite app_nil_r.
  - assert (path ∉ dict_keys (map (λ p : string, (p, 1)) done)) as Hfresh.
    { unfold dict_keys. rewrite map_map, map_id. simpl.
      apply NoDup_app in Hnd as (_ & Hsep & _).
      intros Hin. apply (Hsep _ Hin). left. }
    simpl fold_left. unfold count_request at 2. rewrite He.
    unfold dict_get_default. rewrite (dict_get_None _ _ Hfresh).
    rewrite (dict_set_fresh _ _ _ Hfresh).
    change [(path, 0 + 1)] with (map (λ p : string, (p, 1)) [path]).
    rewrite <- map_app, IH.
    + by rewrite <- app_assoc.
    + by rewrite <- app_assoc.
Qed.

(** C5. From an empty [counts], [n] echo requests for one path (at least
    one request) leave exactly the entry [(path, n)]; echo requests for
    pairwise distinct paths leave one entry per path, each with count 1. *)
Theorem echo_counts_from_empty (s : state) :
  request_count s = [] →
  (∀ (path : string) (n : nat),
      startswith path "/api/echo" = true → (0 < n)%nat →
      request_count (exec (serve_forever (replicate n path)) s) = [(path, Z.of_nat n)])
  ∧ (∀ paths : list string,
      Forall (λ path, startswith path "/api/echo" = true) paths → NoDup paths →
      request_count (exec (serve_forever paths) s) = map (λ path, (path, 1)) paths
      ∧ length (request_count (exec (serve_forever paths) s)) = length paths
      ∧ NoDup (dict_keys (request_count (exec (serve_forever paths) s)))).
Proof.
  intros Hempty. split.
  - intros path [|n] He Hn; [lia|].
    rewrite serve_forever_request_count, Hempty, replicate_S.
    simpl fold_left. unfold count_request at 2. rewrite He. simpl dict_set.
    rewrite (count_request_again _ _ _ He). do 2 f_equal.
    unfold dict_get_default. simpl dict_get. lia.
  - intros paths He Hnd.
    assert (request_count (exec (serve_forever paths) s)
            = map (λ path, (path, 1)) paths) as ->.
    { rewrite serve_forever_request_count, Hempty.
      by apply (count_request_distinct paths []). }
    split; [done|]. split; [by rewrite length_map|].
    unfold dict_keys. by rewrite map_map, map_id.
Qed.

(** ** The invariant of the store *)

Lemma store_ok_do_GET (path : string) (s : state) :
  store_ok s → store_ok (exec (do_GET path) s).
Proof.
  intros [Hkeys Hpos]. unfold store_ok.
  rewrite do_GET_request_count, do_GET_request_duration.
  destruct (startswith path "/api/echo"); [|done]. split.
  - by apply dict_keys_set.
  - apply dict_set_Forall; [done|]. intros k. simpl.
    unfold dict_get_default.
    destruct (dict_get (request_count s) path) as [v|] eqn:Hget; [|lia].
    pose proof (dict_get_Forall _ _ _ _ Hpos Hget) as Hv. simpl in Hv. lia.
Qed.

(** C9. After any sequence of requests from process start, [counts] and
    [lastDuration] have the same keys (in the same order), and every count
    is at least 1. *)
Theorem reachable_store_ok (paths : list string) :
  dict_keys (request_count (exec (serve_forever paths) boot))
    = dict_keys (request_duration (exec (serve_forever paths) boot))
  ∧ Forall (λ entry, 1 ≤ snd entry) (request_count (exec (serve_forever paths) boot)).
Proof.
  change (store_ok (exec (serve_forever paths) boot)).
  assert (store_ok boot) as Hboot by (by split; [|constructor]).
  revert Hboot. generalize boot.
  induction paths as [|path rest IH]; intros s Hs; [done|].
  rewrite serve_forever_cons. apply IH, store_ok_do_GET.
  by destruct s.
Qed.

(** Inside the handling of one echo request for a new path, between the two
    assignments, the key is in [request_count] only: the invariant is one of
    the states between requests, which are the only ones another handler
    sees, since [serve_forever] handles one request at a time. *)
Remark keys_differ_between_assignments (path : string) :
  startswith path "/api/echo" = true →
  ∃ s' : state,
    states (do_GET path) boot !! 3%nat = Some s'
    ∧ dict_keys (request_count s') = [path]
    ∧ dict_keys (request_duration s') = [].
Proof.
  intros He. unfold do_GET.
  rewrite (echo_not_health _ He), (echo_not_metrics _ He), He.
  by eexists.
Qed.

(** ** Orders along a run *)

Section Stepwise.
Context (R : relation state) `{!PreOrder R}.

Lemma stepwise_ret {A : Type} (a : A) (s : state) : stepwise_from R (mret a) s.
Proof. split; [repeat constructor | done]. Qed.

Lemma stepwise_gets {A : Type} (f : state → A) (s : state) : stepwise_from R (gets f) s.
Proof. split; [repeat constructor | done]. Qed.

Lemma stepwise_modify (f : state → state) (s : state) :
  R s (f s) → stepwise_from R (modify f) s.
Proof. intros Hstep. split; [by repeat constructor | done]. Qed.

Lemma sorted_before_last (l : list state) (x y : state) :
  StronglySorted R l → last l = Some x → y ∈ l → R y x.
Proof.
  intros Hsorted [l' ->]%last_Some [Hy | ->%list_elem_of_singleton]%elem_of_app.
  - apply (StronglySorted_app_1_elem_of R l' [x]); [done..|]. left.
  - reflexivity.
Qed.

Lemma stepwise_bind {A B : Type} (m : M A) (k : A → M B) (s : state) :
  stepwise_from R m s →
  stepwise_from R (k (result m s)) (exec m s) →
  stepwise_from R (m ≫= k) s.
Proof.
  intros [Hs1 Hl1] [Hs2 Hl2]. unfold stepwise_from.
  change (exec (m ≫= k) s) with (exec (k (result m s)) (exec m s)).
  change (states (m ≫= k) s)
    with (states m s ++ visited (k (result m s) (exec m s)))%list.
  unfold states in Hs2, Hl2.
  apply StronglySorted_cons in Hs2 as [Hnext Hs2]. split.
  - apply StronglySorted_app. split_and!; [|done..].
    intros x1 x2 Hx1 Hx2. transitivity (exec m s).
    + by apply (sorted_before_last (states m s)).
    + by apply (proj1 (Forall_forall _ _) Hnext).
  - rewrite last_app. rewrite last_cons in Hl2.
    destruct (last (visited (k (result m s) (exec m s)))); [done|].
    by rewrite Hl1.
Qed.

Lemma sorted_lookup (l : list state) (i j : nat) (x y : state) :
  StronglySorted R l → l !! i = Some x → l !! j = Some y → (i ≤ j)%nat → R x y.
Proof.
  intros Hsorted. revert i j.
  induction Hsorted as [|a l Hl IH Ha]; intros i j Hi Hj Hij; [done|].
  destruct i as [|i], j as [|j]; simpl in *; simplify_eq.
  - reflexivity.
  - apply (proj1 (Forall_forall _ _) Ha). by eapply list_elem_of_lookup_2.
  - lia.
  - apply (IH i j); [done..|lia].
Qed.

End Stepwise.

#[local] Instance counts_le_preorder : PreOrder counts_le.
Proof.
  split.
  - intros s k v Hget. exists v. split; [done|lia].
  - intros s1 s2 s3 H12 H23 k v Hget.
    destruct (H12 k v Hget) as (v2 & Hget2 & Hle2).
    destruct (H23 k v2 Hget2) as (v3 & Hget3 & Hle3).
    exists v3. split; [done|lia].
Qed.

Lemma counts_le_same (s1 s2 : state) :
  request_count s1 = request_count s2 → counts_le s1 s2.
Proof. intros Heq k v Hget. exists v. rewrite <- Heq. split; [done|lia]. Qed.

(** The assignment of the echo branch never lowers a counter. *)
Lemma stepwise_count (path : string) (s : state) :
  stepwise_from counts_le
    (set_request_count path (dict_get_default (request_count s) path 0 + 1)) s.
Proof.
  apply stepwise_modify. intros k v Hget. simpl.
  destruct (String.eqb_spec path k) as [->|Hne].
  - rewrite dict_get_set_eq. unfold dict_get_default. rewrite Hget.
    eexists. split; [done|lia].
  - rewrite dict_get_set_ne by done. exists v. split; [done|lia].
Qed.

Ltac stepwise :=
  repeat first
    [ match goal with |- PreOrder _ => apply _ end
    | apply stepwise_ret
    | apply stepwise_gets
    | apply stepwise_count
    | apply stepwise_modify; apply counts_le_same; reflexivity
    | apply stepwise_bind ].

Lemma do_GET_stepwise (path : string) (s : state) :
  stepwise_from counts_le (do_GET path) s.
Proof. handler_cases path; stepwise. Qed.

Lemma serve_forever_stepwise (paths : list string) (s : state) :
  stepwise_from counts_le (serve_forever paths) s.
Proof.
  revert s. induction paths as [|path rest IH]; intros s; simpl.
  - apply stepwise_ret.
  - apply stepwise_bind; try apply _; [stepwise|].
    apply stepwise_bind; try apply _; [apply do_GET_stepwise | apply IH].
Qed.

(** C8. Along the handling of any sequence of requests, whatever
    [counts[path]] is in one state, it is present and at least as large in
    every later state: no step lowers a counter or removes an entry. *)
Theorem counts_never_decrease (paths : list string) (s : state)
    (i j : nat) (s1 s2 : state) (path : string) (v : Z) :
  states (serve_forever paths) s !! i = Some s1 →
  states (serve_forever paths) s !! j = Some s2 →
  (i ≤ j)%nat →
  dict_get (request_count s1) path = Some v →
  ∃ v' : Z, dict_get (request_count s2) path = Some v' ∧ v ≤ v'.
Proof.
  intros Hi Hj Hij.
  apply (sorted_lookup counts_le (states (serve_forever paths) s) i j); try done.
  apply serve_forever_stepwise.
Qed.

(** ** The exporter *)

Lemma append_lines_map {V : Type} (line : string → V → string)
    (metrics : list string) (d : dict V) :
  append_lines line metrics d = (metrics ++ map (λ kv, line (fst kv) (snd kv)) d)%list.
Proof.
  unfold append_lines. revert metrics.
  induction d as [|kv d IH]; intros metrics; simpl.
  - by rewrite app_nil_r.
  - by rewrite IH, <- app_assoc.
Qed.

(** C4. The exporter's output is a function of the two dictionaries alone,
    and reading them changes nothing: the counter header, one
    [api_requests_total] line per entry of [counts], the gauge header, one
    [api_request_duration_seconds] line per entry of [lastDuration], in that
    order and in the order of the entries, joined by newlines and ended by a
    newline. *)
Theorem generate_metrics_exposition (s : state) :
  _generate_metrics s
    = Outcome (spec_exposition (request_count s) (request_duration s)) s []
  ∧ ∃ text : string, result _generate_metrics s = text +:+ newline.
Proof.
  split; [|by eexists].
  destruct s as [c d t w l]. run_monad.
  rewrite !append_lines_map. unfold spec_exposition. simpl.
  by rewrite <- !app_assoc.
Qed.

(** C10. With both dictionaries empty the exporter's output is the four
    header lines, each followed by a newline, and nothing else. *)
Theorem generate_metrics_empty (s : state) :
  request_count s = [] → request_duration s = [] →
  result _generate_metrics s =
    "# HELP api_requests_total Total number of requests" +:+ newline +:+
    "# TYPE api_requests_total counter" +:+ newline +:+
    "# HELP api_request_duration_seconds Request duration" +:+ newline +:+
    "# TYPE api_request_duration_seconds gauge" +:+ newline.
Proof. destruct s as [c d t w l]. simpl. by intros -> ->. Qed.

(** * Further properties of the server *)

(** ** What one request sends and logs *)

(** The handler answers every path with exactly one response of four parts:
    a status that is 200 or 404, one [Content-Type] header that is
    [application/json] or [text/plain], the end of the headers and one
    body. It sends nothing else, whatever the path. *)
Theorem do_GET_one_response (path : string) (s : state) :
  ∃ (code : Z) (ctype : string) (body : list byte),
    wfile (exec (do_GET path) s)
      = (wfile s ++ [Status code; Header "Content-Type" ctype; EndHeaders; Body body])%list
    ∧ (code = 200 ∨ code = 404)
    ∧ (ctype = "application/json" ∨ ctype = "text/plain").
Proof.
  destruct s as [c d t w l].
  handler_cases path; run_monad; rewrite <- !app_assoc;
    do 3 eexists; split_and!; first [reflexivity | by left | by right].
Qed.

(** [/health] and [/metrics] are matched exactly: with anything after them,
    a query string or a slash, the answer is the 404 response and the store
    is left alone. *)
Theorem exact_routes_reject_suffix (suffix : string) (s : state) :
  suffix ≠ "" →
  Forall (λ path,
      wfile (exec (do_GET path) s)
        = (wfile s ++ [Status 404; Header "Content-Type" "application/json"; EndHeaders;
                       Body (list_byte_of_string not_found_body)])%list
      ∧ request_count (exec (do_GET path) s) = request_count s
      ∧ logged (exec (do_GET path) s) = logged s)
    ["/health" +:+ suffix; "/metrics" +:+ suffix].
Proof.
  intros Hne. destruct suffix as [|a suffix]; [done|].
  destruct s as [c d t w l].
  repeat constructor; unfold do_GET; simpl; run_monad; by rewrite <- ?app_assoc.
Qed.

(** [/health] logs the line [Health check passed]; a path that starts with
    [/api/echo] logs one line with the path and the measured duration to
    three decimals; [/metrics] and the paths answered with 404 log nothing. *)
Theorem do_GET_log_lines (path : string) (s : state) :
  (path = "/health" →
   logged (exec (do_GET path) s) = (logged s ++ ["Health check passed"])%list)
  ∧ (startswith path "/api/echo" = true →
     logged (exec (do_GET path) s)
       = (logged s ++ ["Request: " +:+ path +:+ " - Duration: "
            +:+ float_format_3f (clock (S (ticks s)) - clock (ticks s))%float
            +:+ "s"])%list)
  ∧ (is_logged path = false → logged (exec (do_GET path) s) = logged s).
Proof.
  destruct s as [c d t w l]. unfold is_logged. split_and!.
  - intros ->. by unfold do_GET.
  - intros He. unfold do_GET.
    by rewrite (echo_not_health _ He), (echo_not_metrics _ He), He.
  - intros [Hh He]%orb_false_elim. unfold do_GET. rewrite Hh, He.
    by destruct (String.eqb path "/metrics").
Qed.

(** ** Requests one after the other *)

Lemma M_bind_assoc {A B C : Type} (m : M A) (k : A → M B) (h : B → M C) (s : state) :
  ((m ≫= k) ≫= h) s = (m ≫= λ a, k a ≫= h) s.
Proof.
  cbv beta zeta delta [mbind M_bind]. cbn [value final visited].
  by rewrite app_assoc.
Qed.

Lemma serve_forever_app (paths1 paths2 : list string) (s : state) :
  serve_forever (paths1 ++ paths2) s
  = (serve_forever paths1 ≫= λ _, serve_forever paths2) s.
Proof.
  revert s. induction paths1 as [|path rest IH]; intros s.
  - change (serve_forever ([] ++ paths2)) with (serve_forever paths2).
    change (serve_forever []) with (mret tt : M unit).
    cbv beta zeta delta [mbind M_bind mret M_ret].
    cbn [value final visited app]. by destruct (serve_forever paths2 s).
  - change (serve_forever ((path :: rest) ++ paths2))
      with (accept ≫= λ _, do_GET path ≫= λ _, serve_forever (rest ++ paths2)).
    change (serve_forever (path :: rest))
      with (accept ≫= λ _, do_GET path ≫= λ _, serve_forever rest).
    rewrite !M_bind_assoc.
    cbv beta zeta delta [mbind M_bind]. cbn [value final visited].
    rewrite IH. cbv beta zeta delta [mbind M_bind]. cbn [value final visited].
    by rewrite <- !app_assoc.
Qed.

Lemma do_GET_logged_length (path : string) (s : state) :
  length (logged (exec (do_GET path) s))
  = (length (logged s) + if is_logged path then 1 else 0)%nat.
Proof.
  destruct s as [c d t w l]. unfold is_logged.
  handler_cases path; run_monad; rewrite ?length_app; simpl; lia.
Qed.

(** The log has one line per request for [/health] or for a path that starts
    with [/api/echo], and no line for any other request. *)
Theorem serve_forever_log_length (paths : list string) (s : state) :
  length (logged (exec (serve_forever paths) s))
  = (length (logged s) + length (List.filter is_logged paths))%nat.
Proof.
  revert s. induction paths as [|path rest IH]; intros s.
  - change (exec (serve_forever []) s) with s. simpl. lia.
  - rewrite serve_forever_cons, IH, do_GET_logged_length.
    assert (logged (exec accept s) = logged s) as -> by (by destruct s).
    simpl. destruct (is_logged path); simpl; lia.
Qed.

(** ** Counters over a sequence of requests *)

Lemma dict_get_default_set {V : Type} (d : dict V) (k k' : string) (v dflt : V) :
  dict_get_default (dict_set d k v) k' dflt
  = if String.eqb k k' then v else dict_get_default d k' dflt.
Proof.
  unfold dict_get_default. destruct (String.eqb_spec k k') as [->|Hne].
  - by rewrite dict_get_set_eq.
  - by rewrite dict_get_set_ne.
Qed.

Lemma count_request_get (counts : dict Z) (request path : string) :
  dict_get_default (count_request counts request) path 0
  = dict_get_default counts path 0
    + (if startswith request "/api/echo" && String.eqb request path then 1 else 0).
Proof.
  unfold count_request. destruct (startswith request "/api/echo"); simpl; [|lia].
  rewrite dict_get_default_set.
  destruct (String.eqb_spec request path) as [->|Hne]; lia.
Qed.

Lemma fold_count_request_get (paths : list string) (counts : dict Z) (path : string) :
  startswith path "/api/echo" = true →
  dict_get_default (fold_left count_request paths counts) path 0
  = dict_get_default counts path 0 + Z.of_nat (count_occ String.string_dec paths path).
Proof.
  intros He. revert counts.
  induction paths as [|request rest IH]; intros counts; simpl; [lia|].
  rewrite IH, count_request_get.
  destruct (String.string_dec request path) as [->|Hne].
  - rewrite He, String.eqb_refl. simpl. lia.
  - apply String.eqb_neq in Hne. rewrite Hne, andb_false_r. lia.
Qed.

(** After any requests, the counter of a path that starts with [/api/echo]
    stands above its former value (0 if it had none) by the number of
    requests for exactly that path, whatever other requests came between. *)
Theorem counts_are_occurrences (paths : list string) (path : string) (s : state) :
  startswith path "/api/echo" = true →
  dict_get_default (request_count (exec (serve_forever paths) s)) path 0
  = dict_get_default (request_count s) path 0
    + Z.of_nat (count_occ String.string_dec paths path).
Proof.
  intros He. rewrite serve_forever_request_count. by apply fold_count_request_get.
Qed.

Lemma total_count_request (counts : dict Z) (path : string) :
  total (count_request counts path)
  = total counts + (if startswith path "/api/echo" then 1 else 0).
Proof.
  unfold count_request. destruct (startswith path "/api/echo"); [|lia].
  induction counts as [|[k v] counts IH]; simpl; [done|].
  unfold dict_get_default in *. simpl.
  destruct (String.eqb k path); simpl; lia.
Qed.

(** The counters add up to the number of requests for paths that start with
    [/api/echo]: every such request is counted once, and nothing else is. *)
Theorem counters_add_up (paths : list string) (s : state) :
  total (request_count (exec (serve_forever paths) s))
  = total (request_count s)
    + Z.of_nat (length (List.filter (λ path, startswith path "/api/echo") paths)).
Proof.
  rewrite serve_forever_request_count. generalize (request_count s).
  induction paths as [|path rest IH]; intros counts; simpl; [lia|].
  rewrite IH, total_count_request.
  destruct (startswith path "/api/echo"); simpl length; lia.
Qed.

(** Requests for other paths are invisible in the counters: [request_count]
    ends as if only the requests for paths that start with [/api/echo] had
    been made. *)
Theorem counts_ignore_other_requests (paths : list string) (s : state) :
  request_count (exec (serve_forever paths) s)
  = request_count
      (exec (serve_forever (List.filter (λ path, startswith path "/api/echo") paths)) s).
Proof.
  rewrite !serve_forever_request_count. generalize (request_count s).
  induction paths as [|path rest IH]; intros counts; [done|]. simpl.
  destruct (startswith path "/api/echo") eqn:He; simpl.
  - apply IH.
  - unfold count_request at 2. rewrite He. apply IH.
Qed.

(** A request changes no entry but the one of its own path: under every
    other key, both dictionaries hold what they held before, whatever the
    request. *)
Theorem other_endpoints_untouched (path k : string) (s : state) :
  k ≠ path →
  dict_get (request_count (exec (do_GET path) s)) k = dict_get (request_count s) k
  ∧ dict_get (request_duration (exec (do_GET path) s)) k
    = dict_get (request_duration s) k.
Proof.
  intros Hne. rewrite do_GET_request_count, do_GET_request_duration.
  destruct (startswith path "/api/echo"); [|done].
  by rewrite !dict_get_set_ne.
Qed.

(** ** The keys of the store *)

Lemma dict_keys_set_known {V : Type} (d : dict V) (k : string) (v : V) :
  k ∈ dict_keys d → dict_keys (dict_set d k v) = dict_keys d.
Proof.
  induction d as [|[k0 v0] d IH]; simpl; [by rewrite elem_of_nil|].
  destruct (String.eqb_spec k0 k) as [->|Hne]; [done|].
  rewrite elem_of_cons. intros [->|Hin]; [done|]. simpl. by rewrite IH.
Qed.

Lemma dict_keys_set_cases {V : Type} (d : dict V) (k : string) (v : V) :
  dict_keys (dict_set d k v)
  = if bool_decide (k ∈ dict_keys d) then dict_keys d else (dict_keys d ++ [k])%list.
Proof.
  case_bool_decide as Hin.
  - by apply dict_keys_set_known.
  - rewrite (dict_set_fresh _ _ _ Hin). unfold dict_keys. by rewrite map_app.
Qed.

(** A request for a path that starts with [/api/echo] leaves the keys of
    [request_count] as they were when the path already has a counter, and
    adds the path after all the others when it has none: the exporter lists
    the endpoints in the order of their first request. *)
Theorem new_endpoint_goes_last (path : string) (s : state) :
  startswith path "/api/echo" = true →
  dict_keys (request_count (exec (do_GET path) s))
  = if bool_decide (path ∈ dict_keys (request_count s))
    then dict_keys (request_count s)
    else (dict_keys (request_count s) ++ [path])%list.
Proof.
  intros He. rewrite do_GET_request_count, He. apply dict_keys_set_cases.
Qed.

Lemma count_request_keys (counts : dict Z) (request k : string) :
  k ∈ dict_keys (count_request counts request)
  ↔ k ∈ dict_keys counts ∨ (k = request ∧ startswith request "/api/echo" = true).
Proof.
  unfold count_request. destruct (startswith request "/api/echo").
  - rewrite dict_keys_set_cases. case_bool_decide as Hin.
    + split; [by left | intros [?|[-> _]]; done].
    + rewrite elem_of_app, list_elem_of_singleton.
      split; (intros [?|?]; [by left | right; by intuition]).
  - split; [by left | intros [?|[_ ?]]; done].
Qed.

Lemma count_request_NoDup (counts : dict Z) (request : string) :
  NoDup (dict_keys counts) → NoDup (dict_keys (count_request counts request)).
Proof.
  intros Hnd. unfold count_request. destruct (startswith request "/api/echo"); [|done].
  rewrite dict_keys_set_cases. case_bool_decide as Hin; [done|].
  apply NoDup_app. split_and!; [done | | apply NoDup_singleton].
  intros k Hk ->%list_elem_of_singleton. done.
Qed.

(** From process start, the keys of [request_count] are exactly the
    requested paths that start with [/api/echo], each of them once: the
    exporter never prints two lines for one endpoint. *)
Theorem counted_endpoints (paths : list string) :
  NoDup (dict_keys (request_count (exec (serve_forever paths) boot)))
  ∧ ∀ k : string,
      k ∈ dict_keys (request_count (exec (serve_forever paths) boot))
      ↔ k ∈ paths ∧ startswith k "/api/echo" = true.
Proof.
  rewrite serve_forever_request_count.
  assert (∀ counts : dict Z,
    (NoDup (dict_keys counts) → NoDup (dict_keys (fold_left count_request paths counts)))
    ∧ ∀ k, k ∈ dict_keys (fold_left count_request paths counts)
           ↔ k ∈ dict_keys counts ∨ (k ∈ paths ∧ startswith k "/api/echo" = true))
    as Hgen.
  { induction paths as [|path rest IH]; intros counts; simpl.
    - split; [done|]. intros k. rewrite elem_of_nil. tauto.
    - destruct (IH (count_request counts path)) as [Hnd Hkeys]. split.
      + intros Hc. by apply Hnd, count_request_NoDup.
      + intros k. rewrite Hkeys, count_request_keys, elem_of_cons.
        split; [intros [[?|[-> ?]]|[? ?]] | intros [?|[[->|?] ?]]]; auto. }
  destruct (Hgen (request_count boot)) as [Hnd Hkeys]. split.
  - apply Hnd. simpl. apply NoDup_nil_2.
  - intros k. rewrite Hkeys. simpl. rewrite elem_of_nil. tauto.
Qed.

(** ** Durations over a sequence of requests *)

Lemma serve_forever_exec_app (paths1 paths2 : list string) (s : state) :
  exec (serve_forever (paths1 ++ paths2)) s
  = exec (serve_forever paths2) (exec (serve_forever paths1) s).
Proof. unfold exec. by rewrite serve_forever_app. Qed.

Lemma serve_forever_duration_frame (paths : list string) (path : string) (s : state) :
  path ∉ paths →
  dict_get (request_duration (exec (serve_forever paths) s)) path
  = dict_get (request_duration s) path.
Proof.
  revert s. induction paths as [|request rest IH]; intros s Hnin; [done|].
  apply not_elem_of_cons in Hnin as [Hne Hnin].
  rewrite serve_forever_cons, (IH _ Hnin), do_GET_request_duration.
  destruct (startswith request "/api/echo").
  - rewrite dict_get_set_ne by done. by destruct s.
  - by destruct s.
Qed.

(** The duration kept for a path is the one measured in the last request for
    it: the difference of the two clock readings that request takes first,
    whatever earlier requests stored and whatever other requests follow. *)
Theorem last_duration_wins (before after : list string) (path : string) (s : state) :
  startswith path "/api/echo" = true →
  path ∉ after →
  dict_get (request_duration (exec (serve_forever (before ++ path :: after)) s)) path
  = Some (clock (S (ticks (exec (serve_forever before) s)))
          - clock (ticks (exec (serve_forever before) s)))%float.
Proof.
  intros He Hnin.
  rewrite serve_forever_exec_app, serve_forever_cons.
  rewrite (serve_forever_duration_frame _ _ _ Hnin).
  rewrite do_GET_request_duration, He, dict_get_set_eq.
  by destruct (exec (serve_forever before) s).
Qed.



(** ** Scraping [/metrics] *)

Lemma append_cons (a : ascii) (s1 s2 : string) :
  String a s1 +:+ s2 = String a (s1 +:+ s2).
Proof. reflexivity. Qed.

Lemma append_assoc (s1 s2 s3 : string) : (s1 +:+ s2) +:+ s3 = s1 +:+ (s2 +:+ s3).
Proof. induction s1 as [|a s1 IH]; [done|]. by rewrite !append_cons, IH. Qed.

Lemma append_nil_r (s : string) : s +:+ "" = s.
Proof. induction s as [|a s IH]; [done|]. by rewrite append_cons, IH. Qed.

Lemma join_cons (sep x y : string) (l : list string) :
  join sep (x :: y :: l) = x +:+ sep +:+ join sep (y :: l).
Proof. reflexivity. Qed.

Lemma join_split (sep : string) (l1 l2 : list string) (x : string) :
  l1 ≠ [] →
  join sep (l1 ++ x :: l2) +:+ sep
  = join sep l1 +:+ sep +:+ x +:+ sep
      +:+ match l2 with [] => "" | _ => join sep l2 +:+ sep end.
Proof.
  induction l1 as [|y l1 IH]; [done|]. intros _.
  destruct l1 as [|z l1].
  - change ([y] ++ x :: l2)%list with (y :: x :: l2). rewrite join_cons.
    change (join sep [y]) with y.
    destruct l2 as [|z l2].
    + change (join sep [x]) with x. by rewrite append_nil_r, !append_assoc.
    + rewrite join_cons. by rewrite !append_assoc.
  - change ((y :: z :: l1) ++ x :: l2)%list with (y :: (z :: l1) ++ x :: l2)%list.
    change ((z :: l1) ++ x :: l2)%list with (z :: l1 ++ x :: l2)%list.
    rewrite !join_cons. 
    change (z :: l1 ++ x :: l2)%list with ((z :: l1) ++ x :: l2)%list.
    rewrite !append_assoc. rewrite IH by done. by rewrite ?append_assoc.
Qed.

Lemma generate_metrics_lines (s : state) :
  result _generate_metrics s
  = join newline
      (["# HELP api_requests_total Total number of requests";
        "# TYPE api_requests_total counter"]
       ++ map (λ entry, count_line (fst entry) (snd entry)) (request_count s)
       ++ ["# HELP api_request_duration_seconds Request duration";
           "# TYPE api_request_duration_seconds gauge"]
       ++ map (λ entry, duration_line (fst entry) (snd entry)) (request_duration s))%list
    +:+ newline.
Proof.
  destruct s as [c d t w l]. run_monad. rewrite !append_lines_map.
  by rewrite <- !app_assoc.
Qed.

Lemma serve_forever_store_frame (paths : list string) (s : state) :
  Forall (λ path, startswith path "/api/echo" = false) paths →
  request_count (exec (serve_forever paths) s) = request_count s
  ∧ request_duration (exec (serve_forever paths) s) = request_duration s.
Proof.
  intros Hother. revert s.
  induction Hother as [|path rest He Hrest IH]; intros s; [done|].
  rewrite serve_forever_cons.
  destruct (IH (exec (do_GET path) (exec accept s))) as [-> ->].
  rewrite do_GET_request_count, do_GET_request_duration, He. by destruct s.
Qed.

Lemma metrics_response (s : state) :
  wfile (exec (serve_forever ["/metrics"]) s)
  = [Status 200; Header "Content-Type" "text/plain"; EndHeaders;
     Body (str_encode (result _generate_metrics s))].
Proof. by destruct s. Qed.

(** A scrape is read-only and repeatable: after any requests for paths that
    do not start with [/api/echo], among them [/health], unknown paths and
    [/metrics] itself, a request for [/metrics] is answered exactly as it
    would have been before them. *)
Theorem scrape_is_repeatable (others : list string) (s : state) :
  Forall (λ path, startswith path "/api/echo" = false) others →
  wfile (exec (serve_forever (others ++ ["/metrics"])) s)
  = wfile (exec (serve_forever ["/metrics"]) s).
Proof.
  intros Hother. rewrite serve_forever_exec_app, !metrics_response.
  rewrite !generate_metrics_lines.
  by destruct (serve_forever_store_frame others s Hother) as [-> ->].
Qed.

Lemma dict_get_elem {V : Type} (d : dict V) (k : string) (v : V) :
  dict_get d k = Some v → (k, v) ∈ d.
Proof.
  induction d as [|[k0 v0] d IH]; simpl; [done|].
  destruct (String.eqb_spec k0 k) as [->|Hne].
  - intros [= ->]. left.
  - intros Hget. right. auto.
Qed.

(** After any requests from process start, the exporter's output has, for
    every requested path that starts with [/api/echo], the whole line
    [api_requests_total{endpoint=...}] with that path and the number of
    requests made for it. *)
Theorem scrape_shows_counter (paths : list string) (path : string) :
  startswith path "/api/echo" = true →
  path ∈ paths →
  ∃ pre post : string,
    result _generate_metrics (exec (serve_forever paths) boot)
    = pre +:+ newline
        +:+ count_line path (Z.of_nat (count_occ String.string_dec paths path))
        +:+ newline +:+ post.
Proof.
  intros He Hin. rewrite generate_metrics_lines.
  set (final := exec (serve_forever paths) boot).
  assert (dict_get_default (request_count final) path 0
          = Z.of_nat (count_occ String.string_dec paths path)) as Hocc.
  { unfold final. rewrite serve_forever_request_count.
    by rewrite (fold_count_request_get _ _ _ He). }
  assert (0 < count_occ String.string_dec paths path)%nat as Hpos.
  { apply count_occ_In. by apply list_elem_of_In. }
  assert ((path, Z.of_nat (count_occ String.string_dec paths path))
          ∈ request_count final) as Hentry.
  { apply dict_get_elem. unfold dict_get_default in Hocc.
    destruct (dict_get (request_count final) path) as [v|]; [by subst | lia]. }
  apply list_elem_of_split in Hentry as (c1 & c2 & Hsplit).
  rewrite Hsplit, map_app. simpl map.
  match goal with
  | |- context [join newline (?h ++ (?m1 ++ ?x :: ?m2) ++ ?rest)%list] =>
      replace (h ++ (m1 ++ x :: m2) ++ rest)%list
        with ((h ++ m1) ++ x :: (m2 ++ rest))%list
        by (by rewrite <- !app_assoc)
  end.
  rewrite join_split by done. rewrite ?append_assoc. eauto.
Qed.

(** After any requests, the exporter's output has, for a path that starts
    with [/api/echo], the whole line [api_request_duration_seconds{endpoint=...}]
    with that path and the duration measured in the last request for it. *)
Theorem scrape_shows_duration (before after : list string) (path : string) (s : state) :
  startswith path "/api/echo" = true →
  path ∉ after →
  ∃ pre post : string,
    result _generate_metrics (exec (serve_forever (before ++ path :: after)) s)
    = pre +:+ newline
        +:+ duration_line path
              (clock (S (ticks (exec (serve_forever before) s)))
               - clock (ticks (exec (serve_forever before) s)))%float
        +:+ newline +:+ post.
Proof.
  intros He Hnin. rewrite generate_metrics_lines.
  set (final := exec (serve_forever (before ++ path :: after)) s).
  set (d := (clock (S (ticks (exec (serve_forever before) s)))
             - clock (ticks (exec (serve_forever before) s)))%float).
  assert ((path, d) ∈ request_duration final) as Hentry.
  { apply dict_get_elem. unfold final.
    rewrite serve_forever_exec_app, serve_forever_cons.
    rewrite (serve_forever_duration_frame _ _ _ Hnin).
    rewrite do_GET_request_duration, He, dict_get_set_eq.
    unfold d. by destruct (exec (serve_forever before) s). }
  apply list_elem_of_split in Hentry as (d1 & d2 & Hsplit).
  rewrite Hsplit, map_app. simpl map.
  match goal with
  | |- context [join newline (?h ++ ?cs ++ ?g ++ ?m1 ++ ?x :: ?m2)%list] =>
      replace (h ++ cs ++ g ++ m1 ++ x :: m2)%list
        with ((h ++ cs ++ g ++ m1) ++ x :: m2)%list
        by (by rewrite <- !app_assoc)
  end.
  rewrite join_split by done. rewrite ?append_assoc. eauto.
Qed.

(** ** The bytes of the JSON responses *)















End Server.

(** * The model run on concrete requests *)

Lemma do_GET_routing_table_witness :
  wfile (exec (do_GET sample_repr sample_repr sample_clock sample_environ "/foo/bar") boot)
  = [Status 404; Header "Content-Type" "application/json"; EndHeaders;
     Body (list_byte_of_string not_found_body)].
Proof.
  apply (do_GET_routing_table sample_repr sample_repr sample_clock sample_environ
           "/foo/bar" boot); [discriminate | discriminate | reflexivity].
Defined.

Lemma health_version_witness :
  wfile (exec (do_GET sample_repr sample_repr sample_clock sample_environ "/health") boot)
  = [Status 200; Header "Content-Type" "application/json"; EndHeaders;
     Body (str_encode (json_dumps sample_repr
             [("status", PyStr "healthy"); ("version", PyStr "2.3.4")]))].
Proof.
  apply (health_version sample_repr sample_repr sample_clock sample_environ boot).
  reflexivity.
Defined.

Lemma echo_updates_store_witness :
  dict_get (request_count
    (exec (do_GET sample_repr sample_repr sample_clock sample_environ "/api/echo?x=1") boot))
    "/api/echo?x=1" = Some 1
  ∧ dict_get (request_duration
    (exec (do_GET sample_repr sample_repr sample_clock sample_environ "/api/echo?x=1") boot))
    "/api/echo?x=1" = Some 0.5%float.
Proof.
  apply (echo_updates_store sample_repr sample_repr sample_clock sample_environ).
  reflexivity.
Defined.

Lemma other_paths_leave_store_witness :
  request_count (exec (do_GET sample_repr sample_repr sample_clock sample_environ "/metrics") boot) = []
  ∧ request_duration (exec (do_GET sample_repr sample_repr sample_clock sample_environ "/metrics") boot) = [].
Proof.
  apply (other_paths_leave_store sample_repr sample_repr sample_clock sample_environ
           "/metrics" boot).
  right; left; reflexivity.
Defined.

Lemma generate_metrics_empty_witness :
  result (_generate_metrics sample_repr) boot =
    "# HELP api_requests_total Total number of requests" +:+ newline +:+
    "# TYPE api_requests_total counter" +:+ newline +:+
    "# HELP api_request_duration_seconds Request duration" +:+ newline +:+
    "# TYPE api_request_duration_seconds gauge" +:+ newline.
Proof. apply (generate_metrics_empty sample_repr boot); reflexivity. Defined.

(** C3 as the specification words it fails on the code: while [/api/echo]
    is handled from process start, the run reaches a state in which
    [request_count] has already changed and nothing has been sent yet. *)
Lemma store_changed_before_any_output :
  ∃ s' : state,
    states (do_GET sample_repr sample_repr sample_clock sample_environ "/api/echo") boot
      !! 3%nat = Some s'
    ∧ request_count s' = [("/api/echo", 1)]
    ∧ request_count s' ≠ request_count boot
    ∧ wfile s' = [].
Proof.
  exists (mkState [("/api/echo", 1)] [] 2 [] []).
  split_and!; [reflexivity | reflexivity | discriminate | reflexivity].
Defined.

Lemma store_changes_before_response_witness :
  let s' := mkState [("/api/echo", 1)] [("/api/echo", 0.5%float)] 2 [Status 200] [] in
  request_count s'
    = request_count
        (exec (do_GET sample_repr sample_repr sample_clock sample_environ "/api/echo") boot)
  ∧ request_duration s'
    = request_duration
        (exec (do_GET sample_repr sample_repr sample_clock sample_environ "/api/echo") boot).
Proof.
  apply (store_changes_before_response sample_repr sample_repr sample_clock
           sample_environ "/api/echo" boot).
  - apply (list_elem_of_lookup_2 _ 5%nat). reflexivity.
  - discriminate.
Defined.

Lemma echo_counts_from_empty_witness :
  request_count
    (exec (serve_forever sample_repr sample_repr sample_clock sample_environ
             (replicate 3 "/api/echo")) boot)
  = [("/api/echo", Z.of_nat 3)].
Proof.
  apply (proj1 (echo_counts_from_empty sample_repr sample_repr sample_clock
                  sample_environ boot eq_refl)).
  - reflexivity.
  - lia.
Defined.

Lemma counts_never_decrease_witness :
  ∃ v' : Z,
    dict_get (request_count
      (exec (serve_forever sample_repr sample_repr sample_clock sample_environ
               ["/api/echo"; "/api/echo"]) boot)) "/api/echo" = Some v'
    ∧ 1 ≤ v'.
Proof.
  apply (counts_never_decrease sample_repr sample_repr sample_clock sample_environ
           ["/api/echo"; "/api/echo"] boot 4 22
           (mkState [("/api/echo", 1)] [] 2 [] [])).
  - vm_compute. reflexivity.
  - vm_compute. reflexivity.
  - lia.
  - vm_compute. reflexivity.
Defined.

(** * Properties across environments *)


(** * The further properties on concrete requests *)

Lemma exact_routes_reject_suffix_witness :
  Forall (λ path,
      wfile (exec (do_GET sample_repr sample_repr sample_clock sample_environ path) boot)
        = ([] ++ [Status 404; Header "Content-Type" "application/json"; EndHeaders;
                  Body (list_byte_of_string not_found_body)])%list
      ∧ request_count
          (exec (do_GET sample_repr sample_repr sample_clock sample_environ path) boot) = []
      ∧ logged
          (exec (do_GET sample_repr sample_repr sample_clock sample_environ path) boot) = [])
    ["/health" +:+ "?probe=1"; "/metrics" +:+ "?probe=1"].
Proof.
  apply (exact_routes_reject_suffix sample_repr sample_repr sample_clock sample_environ
           "?probe=1" boot).
  discriminate.
Defined.

Lemma do_GET_log_lines_witness :
  logged (exec (do_GET sample_repr sample_repr sample_clock sample_environ "/api/echo") boot)
  = ["Request: /api/echo - Duration: 0.5s"].
Proof.
  apply (proj1 (proj2 (do_GET_log_lines sample_repr sample_repr sample_clock
                         sample_environ "/api/echo" boot))).
  reflexivity.
Defined.

Lemma counts_are_occurrences_witness :
  dict_get_default
    (request_count
       (exec (serve_forever sample_repr sample_repr sample_clock sample_environ
                ["/api/echo"; "/health"; "/api/echo"]) boot))
    "/api/echo" 0
  = 0 + Z.of_nat (count_occ String.string_dec ["/api/echo"; "/health"; "/api/echo"]
                    "/api/echo").
Proof.
  apply (counts_are_occurrences sample_repr sample_repr sample_clock sample_environ).
  reflexivity.
Defined.

Lemma new_endpoint_goes_last_witness :
  dict_keys
    (request_count
       (exec (do_GET sample_repr sample_repr sample_clock sample_environ "/api/echo?x=1")
             (mkState [("/api/echo", 1)] [("/api/echo", 0.5%float)] 3 [] [])))
  = ["/api/echo"; "/api/echo?x=1"].
Proof.
  apply (new_endpoint_goes_last sample_repr sample_repr sample_clock sample_environ
           "/api/echo?x=1"
           (mkState [("/api/echo", 1)] [("/api/echo", 0.5%float)] 3 [] [])).
  reflexivity.
Defined.

Lemma last_duration_wins_witness :
  dict_get
    (request_duration
       (exec (serve_forever sample_repr sample_repr sample_clock sample_environ
                (["/api/echo"] ++ "/api/echo" :: ["/health"])) boot))
    "/api/echo"
  = Some 0%float.
Proof.
  apply (last_duration_wins sample_repr sample_repr sample_clock sample_environ
           ["/api/echo"] ["/health"] "/api/echo" boot).
  - reflexivity.
  - apply (bool_decide_unpack _). vm_compute. exact I.
Defined.

Lemma scrape_is_repeatable_witness :
  wfile (exec (serve_forever sample_repr sample_repr sample_clock sample_environ
                 (["/health"; "/metrics"; "/nope"] ++ ["/metrics"])) boot)
  = wfile (exec (serve_forever sample_repr sample_repr sample_clock sample_environ
                   ["/metrics"]) boot).
Proof.
  apply (scrape_is_repeatable sample_repr sample_repr sample_clock sample_environ
           ["/health"; "/metrics"; "/nope"] boot).
  repeat constructor.
Defined.

Lemma scrape_shows_counter_witness :
  ∃ pre post : string,
    result (_generate_metrics sample_repr)
      (exec (serve_forever sample_repr sample_repr sample_clock sample_environ
               ["/api/echo"; "/api/echo"]) boot)
    = pre +:+ newline
        +:+ count_line "/api/echo"
              (Z.of_nat (count_occ String.string_dec ["/api/echo"; "/api/echo"] "/api/echo"))
        +:+ newline +:+ post.
Proof.
  apply (scrape_shows_counter sample_repr sample_repr sample_clock sample_environ
           ["/api/echo"; "/api/echo"] "/api/echo").
  - reflexivity.
  - apply (bool_decide_unpack _). vm_compute. exact I.
Defined.



Lemma other_endpoints_untouched_witness :
  dict_get
    (request_count
       (exec (do_GET sample_repr sample_repr sample_clock sample_environ "/api/echo?x=1")
             (mkState [("/api/echo", 4)] [("/api/echo", 0.5%float)] 0 [] [])))
    "/api/echo"
  = dict_get [("/api/echo", 4)] "/api/echo"
  ∧ dict_get
      (request_duration
         (exec (do_GET sample_repr sample_repr sample_clock sample_environ "/api/echo?x=1")
               (mkState [("/api/echo", 4)] [("/api/echo", 0.5%float)] 0 [] [])))
      "/api/echo"
    = dict_get [("/api/echo", 0.5%float)] "/api/echo".
Proof.
  apply (other_endpoints_untouched sample_repr sample_repr sample_clock sample_environ
           "/api/echo?x=1" "/api/echo"
           (mkState [("/api/echo", 4)] [("/api/echo", 0.5%float)] 0 [] [])).
  discriminate.
Defined.

Lemma scrape_shows_duration_witness :
  ∃ pre post : string,
    result (_generate_metrics sample_repr)
      (exec (serve_forever sample_repr sample_repr sample_clock sample_environ
               ([] ++ "/api/echo" :: ["/metrics"])) boot)
    = pre +:+ newline
        +:+ duration_line sample_repr "/api/echo"
              (sample_clock
                 (S (ticks (exec (serve_forever sample_repr sample_repr sample_clock
                                    sample_environ []) boot)))
               - sample_clock
                   (ticks (exec (serve_forever sample_repr sample_repr sample_clock
                                   sample_environ []) boot)))%float
        +:+ newline +:+ post.
Proof.
  apply (scrape_shows_duration sample_repr sample_repr sample_clock sample_environ
           [] ["/metrics"] "/api/echo" boot).
  - reflexivity.
  - apply (bool_decide_unpack _). vm_compute. exact I.
Defined.
